(** * Static file serving middlewares of the dev server

    A shallow embedding of
    [packages/vite/src/node/server/middlewares/static.ts]:
    [servePublicMiddleware], [serveStaticMiddleware], [serveRawFsMiddleware]
    and the access guard [isFileServingRestricted].

    JavaScript strings are [string]s, the alias table and the allow list are
    [list]s in configuration order, [moduleGraph.safeModulesPath] (a
    [Set<string>]) is a [gset string].  Effects (the [fs.existsSync] probes,
    the logger, [req.url], the calls of [next] and of the sirv handler) are
    threaded through a small state-and-exception monad. *)

From Stdlib Require Import String Ascii List Bool Arith Lia.
From stdpp Require Import base gmap sets strings.
Import ListNotations.

Local Open Scope string_scope.
Local Open Scope list_scope.

(** ** JavaScript string primitives used by the file *)

Module JsString.

(** [s.startsWith(p)] *)
Definition startsWith (s p : string) : bool := String.prefix p s.

(** [s.slice(n)] for [0 <= n]: the characters from index [n] on, the empty
    string once [n] reaches the length. *)
Fixpoint slice (n : nat) (s : string) : string :=
  match n, s with
  | O, _ => s
  | S _, EmptyString => EmptyString
  | S n', String _ s' => slice n' s'
  end.

(** [s.endsWith(p)] *)
Definition endsWith (s p : string) : bool :=
  Nat.leb (String.length p) (String.length s) &&
  String.eqb (slice (String.length s - String.length p) s) p.

(** [s.indexOf(p)]: the least index at which [p] occurs in [s]. *)
Fixpoint indexOf (s p : string) : option nat :=
  if String.prefix p s then Some 0
  else match s with
       | EmptyString => None
       | String _ s' => option_map S (indexOf s' p)
       end.

(** The first [n] characters of [s]. *)
Fixpoint take (n : nat) (s : string) : string :=
  match n, s with
  | O, _ => EmptyString
  | S _, EmptyString => EmptyString
  | S n', String c s' => String c (take n' s')
  end.

(** The replacement text of [String.prototype.replace] when the search
    value is a string (no capture groups): in [replacement], [$$] stands
    for a dollar sign, [$&] for the matched text, [$`] for the text before
    the match and [$'] for the text after it; every other character,
    a dollar sign followed by anything else included, is kept. *)
Fixpoint getSubstitution (matched before after replacement : string) : string :=
  match replacement with
  | EmptyString => EmptyString
  | String "$" (String "$" r) =>
      String "$" (getSubstitution matched before after r)
  | String "$" (String "&" r) =>
      matched +:+ getSubstitution matched before after r
  | String "$" (String "`" r) =>
      before +:+ getSubstitution matched before after r
  | String "$" (String "'" r) =>
      after +:+ getSubstitution matched before after r
  | String c r => String c (getSubstitution matched before after r)
  end.

(** [s.replace(find, replacement)] with a string [find]: only the first
    occurrence is replaced; no occurrence leaves [s] as it is. *)
Definition replace (s find replacement : string) : string :=
  match indexOf s find with
  | None => s
  | Some i =>
      let before := take i s in
      let after := slice (i + String.length find)%nat s in
      before +:+ getSubstitution find before after replacement +:+ after
  end.

(** [s.replace(/^\//, '')]: one leading slash is removed. *)
Definition stripLeadingSlash (s : string) : string :=
  match s with
  | String "/" s' => s'
  | _ => s
  end.

Definition isAsciiLetter (c : ascii) : bool :=
  let n := nat_of_ascii c in
  (Nat.leb 65 n && Nat.leb n 90) || (Nat.leb 97 n && Nat.leb n 122).

(** [s.replace(/^[A-Z]:/i, '')]: a leading drive designator is removed. *)
Definition stripDrive (s : string) : string :=
  match s with
  | String c (String ":" s') => if isAsciiLetter c then s' else s
  | _ => s
  end.

(** [xs.join(sep)] *)
Fixpoint join (sep : string) (xs : list string) : string :=
  match xs with
  | [] => EmptyString
  | [x] => x
  | x :: rest => x +:+ sep +:+ join sep rest
  end.

(** Truthiness of a string: the empty string is falsy. *)
Definition truthy (s : string) : bool := negb (String.eqb s EmptyString).

End JsString.

(** ** Configuration and server objects *)

(** A regular expression used as [find] of an alias is known through the two
    operations the middleware applies to it: [find.test(url)] and
    [url.replace(find, replacement)].  (Expressions without the [g] and [y]
    flags: [test] then keeps no position between calls.) *)
Record RegExp := {
  re_test : string -> bool;
  re_replace : string -> string -> string
}.

(** [Alias]: [{ find: string | RegExp, replacement: string }] *)
Record Alias := {
  find : string + RegExp;
  replacement : string
}.

(** [server.config.server.fs]: [strict?: boolean] is [None] when left
    undefined; [allow] is the list of allowed directories. *)
Record FileSystemServeOptions := {
  strict : option bool;
  allow : list string
}.

(** The parts of [ViteDevServer] the middlewares read:
    [server.config.resolve.alias], [server.config.server.fs] and
    [server.moduleGraph.safeModulesPath]. *)
Record ViteDevServer := {
  config_resolve_alias : list Alias;
  config_server_fs : FileSystemServeOptions;
  moduleGraph_safeModulesPath : gset string
}.

(** ** Imported helpers

    [cleanUrl], [ensureLeadingSlash], [fsPathFromId], [isImportRequest],
    [isInternalRequest], [isWindows], [slash] (utils), [normalizePath],
    [FS_PREFIX] (constants), [path.resolve], [path.extname] (Node) and the
    global [decodeURI] are imported by the file and not defined in it: the
    middlewares are parametrised over them.  [decodeURI] answers [None] where
    it throws a [URIError]. *)
Class Imports := {
  FS_PREFIX : string;
  isWindows : bool;
  cleanUrl : string -> string;
  normalizePath : string -> string;
  ensureLeadingSlash : string -> string;
  slash : string -> string;
  fsPathFromId : string -> string;
  isImportRequest : string -> bool;
  isInternalRequest : string -> bool;
  path_resolve : list string -> string;
  path_extname : string -> string;
  decodeURI : string -> option string
}.

(** ** Effects *)

(** What a handler did with the request: it called [next()], or it handed the
    request to the sirv handler created for [root], the request carrying
    [url] at that moment. *)
Inductive Dispatch :=
| CallNext
| CallServe (root url : string).

(** The mutable surroundings of a handler. *)
Record World := {
  existing : string -> bool;       (* the disk, as [fs.existsSync] answers *)
  probes : list string;            (* paths given to [fs.existsSync], oldest first *)
  console : list string;           (* warnings written by the logger, oldest first *)
  warnedMessages : gset string;    (* messages [warnOnce] has already written *)
  req_url : string;                (* [req.url] *)
  dispatched : list Dispatch       (* calls of [next] and of sirv, oldest first *)
}.

Inductive Completion (A : Type) :=
| Normal (a : A)
| Throw (error : string).
Arguments Normal {A} a.
Arguments Throw {A} error.

Definition M (A : Type) : Type := World -> Completion A * World.

Definition ret {A} (a : A) : M A := fun w => (Normal a, w).

Definition bind {A B} (m : M A) (k : A -> M B) : M B :=
  fun w =>
    match m w with
    | (Normal a, w') => k a w'
    | (Throw e, w') => (Throw e, w')
    end.

Definition throw {A} (e : string) : M A := fun w => (Throw e, w).

Notation "'let*' x ':=' m 'in' k" := (bind m (fun x => k))
  (at level 10, x binder, m at level 200, k at level 200).

(** [fs.existsSync(file)] *)
Definition fs_existsSync (file : string) : M bool :=
  fun w =>
    (Normal (existing w file),
     {| existing := existing w; probes := probes w ++ [file];
        console := console w; warnedMessages := warnedMessages w;
        req_url := req_url w; dispatched := dispatched w |}).

(** Modelled from the spec: the logger ([server.config.logger]) is created
    outside this file.  [warn(message)] writes the message. *)
Definition logger_warn (msg : string) : M unit :=
  fun w =>
    (Normal tt,
     {| existing := existing w; probes := probes w;
        console := console w ++ [msg]; warnedMessages := warnedMessages w;
        req_url := req_url w; dispatched := dispatched w |}).

(** Modelled from the spec: [warnOnce(message)] of the same logger is
    deduplicated by the message: a message already in the set of emitted
    messages is not written again, a new one is written and recorded. *)
Definition logger_warnOnce (msg : string) : M unit :=
  fun w =>
    if bool_decide (msg ∈ warnedMessages w) then (Normal tt, w)
    else
      (Normal tt,
       {| existing := existing w; probes := probes w;
          console := console w ++ [msg];
          warnedMessages := {[ msg ]} ∪ warnedMessages w;
          req_url := req_url w; dispatched := dispatched w |}).

(** Reading and writing [req.url]. *)
Definition get_req_url : M string := fun w => (Normal (req_url w), w).

Definition set_req_url (url : string) : M unit :=
  fun w =>
    (Normal tt,
     {| existing := existing w; probes := probes w;
        console := console w; warnedMessages := warnedMessages w;
        req_url := url; dispatched := dispatched w |}).

Definition dispatch (d : Dispatch) : M unit :=
  fun w =>
    (Normal tt,
     {| existing := existing w; probes := probes w;
        console := console w; warnedMessages := warnedMessages w;
        req_url := req_url w; dispatched := dispatched w ++ [d] |}).

(** [next()] *)
Definition next : M unit := dispatch CallNext.

(** [serve(req, res, next)] for [serve = sirv(root, sirvOptions)]: the
    file-transfer handler receives the request as it is now. *)
Definition serve (root : string) : M unit :=
  fun w => dispatch (CallServe root (req_url w)) w.

(** ** The access guard *)

Definition dquote : string := String "034"%char EmptyString.
Definition newline : string := String "010"%char EmptyString.

Definition unrestricted_access_message (url : string) : string :=
  "Unrestricted file system access to " +:+ dquote +:+ url +:+ dquote.

Definition future_restriction_message : string :=
  "For security concerns, accessing files outside of serving allow list will " +:+
  "be restricted by default in the future version of Vite. " +:+
  "Refer to https://vitejs.dev/config/#server-fs-allow for more details.".

Definition outside_allow_list_message (url : string) (allow : list string) : string :=
  "The request url " +:+ dquote +:+ url +:+ dquote +:+
  " is outside of Vite serving allow list:" +:+ newline +:+ newline +:+
  JsString.join newline (map (fun i => "- " +:+ i) allow) +:+
  newline +:+ newline +:+
  "Refer to docs https://vitejs.dev/config/#server-fs-allow for configurations and more details.".

(** [strict === false] *)
Definition strictly_false (strict : option bool) : bool :=
  match strict with
  | Some false => true
  | _ => false
  end.

(** [!strict]: [undefined] and [false] are falsy. *)
Definition falsy (strict : option bool) : bool :=
  match strict with
  | Some true => false
  | _ => true
  end.

(** [ensureLeadingSlash(normalizePath(cleanUrl(url)))] *)
Definition fileOf `{Imports} (url : string) : string :=
  ensureLeadingSlash (normalizePath (cleanUrl url)).

(** [allow.some((i) => file.startsWith(i + '/'))] *)
Definition underAllowed (allow : list string) (file : string) : bool :=
  existsb (fun i => JsString.startsWith file (i +:+ "/")) allow.

Definition isFileServingRestricted `{Imports}
    (url : string) (server : ViteDevServer) : M bool :=
  (* explicitly disabled *)
  if strictly_false (strict (config_server_fs server)) then ret false
  else
    let file := fileOf url in
    let* onDisk := fs_existsSync file in
    if onDisk then ret false
    else if bool_decide (file ∈ moduleGraph_safeModulesPath server) then ret false
    else
      let allow := allow (config_server_fs server) in
      if underAllowed allow file then ret false
      else if falsy (strict (config_server_fs server)) then
        let* _ := logger_warnOnce (unrestricted_access_message url) in
        let* _ := logger_warnOnce future_restriction_message in
        ret false
      else
        let* _ := logger_warn (outside_allow_list_message url allow) in
        ret true.

(** ** The middlewares *)

Definition servePublicMiddleware `{Imports} (dir : string) : M unit :=
  let* url := get_req_url in
  (* skip import request and internal requests *)
  if isImportRequest url || isInternalRequest url then next
  else serve dir.

Definition aliasMatches (rule : Alias) (url : string) : bool :=
  match find rule with
  | inl s => JsString.startsWith url s
  | inr re => re_test re url
  end.

Definition aliasReplace (rule : Alias) (url : string) : string :=
  match find rule with
  | inl s => JsString.replace url s (replacement rule)
  | inr re => re_replace re url (replacement rule)
  end.

(** The loop over [server.config.resolve.alias]: the value of [redirected]
    when the loop is left, [None] for [undefined]. *)
Fixpoint redirectedByAlias (rules : list Alias) (url : string) : option string :=
  match rules with
  | [] => None
  | rule :: rest =>
      if aliasMatches rule url then Some (aliasReplace rule url)
      else redirectedByAlias rest url
  end.

(** Truthiness of [redirected : string | undefined]. *)
Definition truthy (redirected : option string) : bool :=
  match redirected with
  | Some s => JsString.truthy s
  | None => false
  end.

(** [if (redirected) { if (redirected.startsWith(dir)) redirected = redirected.slice(dir.length) }] *)
Definition stripServedRoot (dir : string) (redirected : option string) : option string :=
  match redirected with
  | Some s =>
      if JsString.truthy s && JsString.startsWith s dir
      then Some (JsString.slice (String.length dir) s)
      else Some s
  | None => None
  end.

(** [redirected || url] *)
Definition orUrl (redirected : option string) (url : string) : string :=
  match redirected with
  | Some s => if JsString.truthy s then s else url
  | None => url
  end.

(** [path.resolve(dir, resolvedUrl.replace(/^\//, ''))], with the trailing
    slash of [resolvedUrl] put back. *)
Definition fileUrlOf `{Imports} (dir resolvedUrl : string) : string :=
  let fileUrl := path_resolve [dir; JsString.stripLeadingSlash resolvedUrl] in
  if JsString.endsWith resolvedUrl "/" && negb (JsString.endsWith fileUrl "/")
  then fileUrl +:+ "/"
  else fileUrl.

(** The test that makes [viteServeStaticMiddleware] leave the request to the
    next handler before anything else is done. *)
Definition staticSkips `{Imports} (url : string) : bool :=
  JsString.endsWith url "/" ||
  String.eqb (path_extname (cleanUrl url)) ".html" ||
  isInternalRequest url.

Definition serveStaticMiddleware `{Imports}
    (dir : string) (server : ViteDevServer) : M unit :=
  let* reqUrl := get_req_url in
  if staticSkips reqUrl then next
  else
    match decodeURI reqUrl with
    | None => throw "URIError"
    | Some url =>
        (* apply aliases to static requests as well *)
        let redirected := redirectedByAlias (config_resolve_alias server) url in
        let redirected := stripServedRoot dir redirected in
        let resolvedUrl := orUrl redirected url in
        let fileUrl := fileUrlOf dir resolvedUrl in
        let* restricted := isFileServingRestricted fileUrl server in
        if restricted then next
        else
          let* _ :=
            match redirected with
            | Some s => if JsString.truthy s then set_req_url s else ret tt
            | None => ret tt
            end in
          serve dir
    end.

Definition serveRawFsMiddleware `{Imports} (server : ViteDevServer) : M unit :=
  let* url := get_req_url in
  if JsString.startsWith url FS_PREFIX then
    let* restricted :=
      isFileServingRestricted (slash (path_resolve [fsPathFromId url])) server in
    let* _ := if restricted then next else ret tt in
    let url := JsString.slice (String.length FS_PREFIX) url in
    let url := if isWindows then JsString.stripDrive url else url in
    let* _ := set_req_url url in
    serve "/"
  else next.

(** The path the raw filesystem middleware hands to the guard. *)
Definition rawFsTarget `{Imports} (url : string) : string :=
  slash (path_resolve [fsPathFromId url]).

(** The URL the raw filesystem middleware leaves in the request. *)
Definition rawFsUrl `{Imports} (url : string) : string :=
  let url := JsString.slice (String.length FS_PREFIX) url in
  if isWindows then JsString.stripDrive url else url.

(** ** A reference host

    The imported helpers as they behave on a POSIX host ([isWindows] is
    false), used to run the middlewares on concrete requests.  Strings are
    read as UTF-8 bytes. *)

Module Posix.

Definition chars (s : string) : list ascii := list_ascii_of_string s.
Definition text (cs : list ascii) : string := string_of_list_ascii cs.

Definition isSlash (c : ascii) : bool := Ascii.eqb c "/".

(** The part of [s] before the first [c]. *)
Fixpoint upTo (c : ascii) (s : string) : string :=
  match s with
  | EmptyString => EmptyString
  | String a s' => if Ascii.eqb a c then EmptyString else String a (upTo c s')
  end.

(** Modelled from the spec: [cleanUrl] (utils) is not under src/; it removes
    the query/hash suffix of a URL. *)
Definition cleanUrl (url : string) : string := upTo "?" (upTo "#" url).

(** [s.split('/')] *)
Fixpoint segments (s : string) : list string :=
  match s with
  | EmptyString => [EmptyString]
  | String c s' =>
      match segments s' with
      | seg :: rest =>
          if isSlash c then EmptyString :: seg :: rest else String c seg :: rest
      | [] => [String c EmptyString]
      end
  end.

(** Node's [normalizeString]: empty and [.] segments are dropped, [..]
    removes the segment before it; above the top it is kept only when
    [allowAboveRoot].  The stack is kept in reverse. *)
Fixpoint normalizeSegments (allowAboveRoot : bool) (stack segs : list string)
  : list string :=
  match segs with
  | [] => rev stack
  | seg :: rest =>
      if String.eqb seg "" || String.eqb seg "." then
        normalizeSegments allowAboveRoot stack rest
      else if String.eqb seg ".." then
        match stack with
        | top :: below =>
            if String.eqb top ".."
            then normalizeSegments allowAboveRoot
                   (if allowAboveRoot then ".." :: stack else stack) rest
            else normalizeSegments allowAboveRoot below rest
        | [] =>
            normalizeSegments allowAboveRoot
              (if allowAboveRoot then [".."] else []) rest
        end
      else normalizeSegments allowAboveRoot (seg :: stack) rest
  end.

(** [path.posix.normalize] *)
Definition normalize (path : string) : string :=
  if String.eqb path "" then "."
  else
    let isAbsolute := JsString.startsWith path "/" in
    let trailingSeparator := JsString.endsWith path "/" in
    let p := JsString.join "/" (normalizeSegments (negb isAbsolute) [] (segments path)) in
    if String.eqb p "" then
      if isAbsolute then "/" else if trailingSeparator then "./" else "."
    else
      let p := if trailingSeparator then p +:+ "/" else p in
      if isAbsolute then "/" +:+ p else p.

(** Modelled from the spec: [normalizePath] is not under src/; it brings a
    path to slash style with [.] and [..] segments collapsed. *)
Definition normalizePath (id : string) : string := normalize id.

(** Modelled from the spec: [ensureLeadingSlash] (utils) is not under src/;
    it yields the leading-slash form of a path. *)
Definition ensureLeadingSlash (path : string) : string :=
  if negb (JsString.startsWith path "/") then "/" +:+ path else path.

Definition backslash : ascii := "092"%char.

(** Modelled from the spec: [slash] (utils) is not under src/; it turns
    backslashes into slashes. *)
Fixpoint slash (p : string) : string :=
  match p with
  | EmptyString => EmptyString
  | String c p' => String (if Ascii.eqb c backslash then "/"%char else c) (slash p')
  end.

(** Modelled from the spec: the reserved URL prefix of raw filesystem
    addressing ([FS_PREFIX], constants) is not under src/. *)
Definition FS_PREFIX : string := "/@fs/".

Definition hasDrive (s : string) : bool :=
  match s with
  | String c (String ":" _) => JsString.isAsciiLetter c
  | _ => false
  end.

(** Modelled from the spec: [fsPathFromId] (utils) is not under src/; it
    strips the reserved prefix and gives the path from the filesystem
    root. *)
Definition fsPathFromId (id : string) : string :=
  let fsPath := normalizePath (JsString.slice (String.length FS_PREFIX) id) in
  if JsString.startsWith fsPath "/" || hasDrive fsPath then fsPath
  else "/" +:+ fsPath.

(** What may follow [import] in the query marker: [=] or nothing, then [&]
    or the end of the URL. *)
Definition importTail (r : string) : bool :=
  match r with
  | EmptyString => true
  | String "&" _ => true
  | String "=" EmptyString => true
  | String "=" (String "&" _) => true
  | _ => false
  end.

(** Modelled from the spec: [isImportRequest] (utils) is not under src/; an
    import request carries the query marker [import] of the module system,
    after [?] or [&]. *)
Fixpoint isImportRequest (url : string) : bool :=
  match url with
  | EmptyString => false
  | String c rest =>
      ((Ascii.eqb c "?" || Ascii.eqb c "&") &&
       JsString.startsWith rest "import" &&
       importTail (JsString.slice 6 rest))
      || isImportRequest rest
  end.

(** Modelled from the spec: [isInternalRequest] (utils) is not under src/; an
    internal request addresses a reserved client/runtime path. *)
Definition isInternalRequest (url : string) : bool :=
  existsb (JsString.startsWith url)
    [FS_PREFIX; "/@id/"; "/@vite/client"; "/@vite/env"].

(** [path.posix.resolve] on a host whose working directory is [cwd]: the
    arguments are joined from the right until an absolute one is met, the
    working directory standing before the first. *)
Fixpoint resolveJoin (cwd : string) (fromRight : list string) (acc : string) : string :=
  match fromRight with
  | [] => cwd +:+ "/" +:+ acc
  | p :: rest =>
      if String.eqb p "" then resolveJoin cwd rest acc
      else if JsString.startsWith p "/" then p +:+ "/" +:+ acc
      else resolveJoin cwd rest (p +:+ "/" +:+ acc)
  end.

Definition path_resolve (cwd : string) (paths : list string) : string :=
  let joined := resolveJoin cwd (rev paths) "" in
  let resolvedAbsolute := JsString.startsWith joined "/" in
  let p := JsString.join "/"
             (normalizeSegments (negb resolvedAbsolute) [] (segments joined)) in
  if resolvedAbsolute then "/" +:+ p
  else if String.eqb p "" then "." else p.

Fixpoint dropWhile {A} (f : A -> bool) (l : list A) : list A :=
  match l with
  | x :: l' => if f x then dropWhile f l' else l
  | [] => []
  end.

Fixpoint takeWhile {A} (f : A -> bool) (l : list A) : list A :=
  match l with
  | x :: l' => if f x then x :: takeWhile f l' else []
  | [] => []
  end.

Definition isDot (c : ascii) : bool := Ascii.eqb c ".".

(** [path.posix.extname]: the text from the last dot of the last path
    component on (trailing slashes aside); empty when that component has no
    dot, starts with its only dot, or is [..]. *)
Definition path_extname (path : string) : string :=
  let rbase :=
    takeWhile (fun c => negb (isSlash c)) (dropWhile isSlash (rev (chars path))) in
  let rext := takeWhile (fun c => negb (isDot c)) rbase in
  match dropWhile (fun c => negb (isDot c)) rbase with
  | [] => ""
  | [ _ ] => ""
  | dot :: _ =>
      if String.eqb (text rbase) ".." then ""
      else text (rev (rext ++ [dot]))
  end.

(** ** [decodeURI] *)

Definition hexValue (c : ascii) : option nat :=
  let n := nat_of_ascii c in
  if Nat.leb 48 n && Nat.leb n 57 then Some (n - 48)
  else if Nat.leb 65 n && Nat.leb n 70 then Some (n - 55)
  else if Nat.leb 97 n && Nat.leb n 102 then Some (n - 87)
  else None.

Inductive Token :=
| Raw (c : ascii)                      (* a character standing for itself *)
| Escape (byte : nat) (h1 h2 : ascii)  (* a well-formed [%h1h2] *)
| Malformed.                           (* [%] not followed by two hex digits *)

Fixpoint tokens (s : string) : list Token :=
  match s with
  | EmptyString => []
  | String "%" (String h1 (String h2 rest)) =>
      match hexValue h1, hexValue h2 with
      | Some a, Some b => Escape (16 * a + b) h1 h2 :: tokens rest
      | _, _ => [Malformed]
      end
  | String "%" _ => [Malformed]
  | String c rest => Raw c :: tokens rest
  end.

(** The characters [decodeURI] leaves escaped. *)
Definition uriReserved (c : ascii) : bool :=
  existsb (Ascii.eqb c) (chars ";/?:@&=+$,#").

(** How many bytes a UTF-8 sequence led by [b] has. *)
Definition utf8Length (b : nat) : option nat :=
  if Nat.leb 194 b && Nat.leb b 223 then Some 2
  else if Nat.leb 224 b && Nat.leb b 239 then Some 3
  else if Nat.leb 240 b && Nat.leb b 244 then Some 4
  else None.

(** The range of the second byte after lead byte [b]. *)
Definition secondByteOk (b second : nat) : bool :=
  if Nat.eqb b 224 then Nat.leb 160 second && Nat.leb second 191
  else if Nat.eqb b 237 then Nat.leb 128 second && Nat.leb second 159
  else if Nat.eqb b 240 then Nat.leb 144 second && Nat.leb second 191
  else if Nat.eqb b 244 then Nat.leb 128 second && Nat.leb second 143
  else Nat.leb 128 second && Nat.leb second 191.

(** [pending = Some (lead, k)]: [k] continuation bytes of the sequence led by
    [lead] are still due, the next one being the second byte when
    [second]. *)
Fixpoint decodeTokens (ts : list Token) (pending : option (nat * nat * bool))
  : option (list ascii) :=
  match ts, pending with
  | [], None => Some []
  | [], Some _ => None
  | Malformed :: _, _ => None
  | Raw c :: rest, None => option_map (cons c) (decodeTokens rest None)
  | Raw _ :: _, Some _ => None
  | Escape b h1 h2 :: rest, None =>
      if Nat.ltb b 128 then
        let c := ascii_of_nat b in
        option_map
          (app (if uriReserved c then ["%"%char; h1; h2] else [c]))
          (decodeTokens rest None)
      else
        match utf8Length b with
        | Some n =>
            option_map (cons (ascii_of_nat b))
              (decodeTokens rest (Some (b, n - 1, true)))
        | None => None
        end
  | Escape b _ _ :: rest, Some (lead, k, second) =>
      let ok :=
        if second then secondByteOk lead b
        else Nat.leb 128 b && Nat.leb b 191 in
      if ok then
        option_map (cons (ascii_of_nat b))
          (decodeTokens rest
             (match k with
              | 1 => None
              | _ => Some (lead, k - 1, false)
              end))
      else None
  end.

(** The global [decodeURI]; [None] where it throws a [URIError]. *)
Definition decodeURI (url : string) : option string :=
  option_map text (decodeTokens (tokens url) None).

End Posix.

(** The reference host with working directory [cwd]. *)
Definition posix (cwd : string) : Imports := {|
  FS_PREFIX := Posix.FS_PREFIX;
  isWindows := false;
  cleanUrl := Posix.cleanUrl;
  normalizePath := Posix.normalizePath;
  ensureLeadingSlash := Posix.ensureLeadingSlash;
  slash := Posix.slash;
  fsPathFromId := Posix.fsPathFromId;
  isImportRequest := Posix.isImportRequest;
  isInternalRequest := Posix.isInternalRequest;
  path_resolve := Posix.path_resolve cwd;
  path_extname := Posix.path_extname;
  decodeURI := Posix.decodeURI
|}.

(** ** Worlds and servers for concrete runs *)

(** A fresh world: the disk holds exactly the paths of [files], nothing has
    been probed, logged or dispatched, and the request carries [url]. *)
Definition world (files : list string) (url : string) : World := {|
  existing := fun file => existsb (String.eqb file) files;
  probes := [];
  console := [];
  warnedMessages := ∅;
  req_url := url;
  dispatched := []
|}.

(** The fresh world in which [msg] was already written once by [warnOnce]. *)
Definition worldWarned (msg : string) (files : list string) (url : string)
  : World := {|
  existing := fun file => existsb (String.eqb file) files;
  probes := [];
  console := [msg];
  warnedMessages := {[ msg ]};
  req_url := url;
  dispatched := []
|}.

(** A server that enforces the allow list [dirs]. *)
Definition strictServer (rules : list Alias) (dirs : list string)
    (safe : gset string) : ViteDevServer := {|
  config_resolve_alias := rules;
  config_server_fs := {| strict := Some true; allow := dirs |};
  moduleGraph_safeModulesPath := safe
|}.

Definition stringAlias (f r : string) : Alias :=
  {| find := inl f; replacement := r |}.

(** The host of the concrete runs below. *)
Definition host : Imports := posix "/srv/app".

(** A server whose [fs.strict] is explicitly [false]. *)
Definition openServer (rules : list Alias) (dirs : list string)
    (safe : gset string) : ViteDevServer := {|
  config_resolve_alias := rules;
  config_server_fs := {| strict := Some false; allow := dirs |};
  moduleGraph_safeModulesPath := safe
|}.

(** A project served from [/proj], the only allowed directory, with no alias
    and no safe module. *)
Definition projServer : ViteDevServer := strictServer [] ["/proj"] ∅.

(** The world after [next()]. *)
Definition afterNext (w : World) : World := {|
  existing := existing w; probes := probes w;
  console := console w; warnedMessages := warnedMessages w;
  req_url := req_url w; dispatched := dispatched w ++ [CallNext]
|}.

(** The world after the sirv handler of [root] was given the request. *)
Definition afterServe (root : string) (w : World) : World := {|
  existing := existing w; probes := probes w;
  console := console w; warnedMessages := warnedMessages w;
  req_url := req_url w;
  dispatched := dispatched w ++ [CallServe root (req_url w)]
|}.

(** The guard run on the same URL for two requests in a row. *)
Definition guardTwice `{Imports} (url : string) (server : ViteDevServer) : M bool :=
  let* _ := isFileServingRestricted url server in
  isFileServingRestricted url server.

(** ** The sirv options *)

(** [[tj]sx?$]: what must follow the dot. *)
Definition scriptTail (s : string) : bool :=
  match s with
  | String c rest =>
      (Ascii.eqb c "t" || Ascii.eqb c "j") &&
      (String.eqb rest "s" || String.eqb rest "sx")
  | EmptyString => false
  end.

(** [/\.[tj]sx?$/.test(pathname)]: the expression is searched for from every
    position of [pathname]. *)
Fixpoint isScriptPathname (pathname : string) : bool :=
  match pathname with
  | EmptyString => false
  | String c rest =>
      (Ascii.eqb c "." && scriptTail rest) || isScriptPathname rest
  end.

(** The headers of a response.  Node keeps them under the lower-cased name;
    [res.setHeader(name, value)] replaces the value kept under that name. *)
Definition lowerAscii (c : ascii) : ascii :=
  let n := nat_of_ascii c in
  if Nat.leb 65 n && Nat.leb n 90 then ascii_of_nat (n + 32) else c.

Fixpoint toLowerCase (s : string) : string :=
  match s with
  | EmptyString => EmptyString
  | String c s' => String (lowerAscii c) (toLowerCase s')
  end.

Definition res_setHeader (name value : string) (headers : gmap string string)
  : gmap string string :=
  <[ toLowerCase name := value ]> headers.

(** [sirvOptions.setHeaders(res, pathname)] *)
Definition setHeaders (headers : gmap string string) (pathname : string)
  : gmap string string :=
  if isScriptPathname pathname
  then res_setHeader "Content-Type" "application/javascript" headers
  else headers.

(** ** Auxiliary notions for the statements *)

(** No dollar sign occurs in [s]. *)
Fixpoint dollarFree (s : string) : bool :=
  match s with
  | EmptyString => true
  | String c s' => negb (Ascii.eqb c "$") && dollarFree s'
  end.

(** [server] with another alias table. *)
Definition withAlias (rules : list Alias) (server : ViteDevServer)
  : ViteDevServer := {|
  config_resolve_alias := rules;
  config_server_fs := config_server_fs server;
  moduleGraph_safeModulesPath := moduleGraph_safeModulesPath server
|}.

(** A server whose [fs.strict] is left undefined. *)
Definition softServer (rules : list Alias) (dirs : list string)
    (safe : gset string) : ViteDevServer := {|
  config_resolve_alias := rules;
  config_server_fs := {| strict := None; allow := dirs |};
  moduleGraph_safeModulesPath := safe
|}.

(** The value of [redirected] when the static middleware calls the guard,
    for the decoded [url]. *)
Definition staticRedirected (dir : string) (server : ViteDevServer)
    (url : string) : option string :=
  stripServedRoot dir (redirectedByAlias (config_resolve_alias server) url).

(** The path the static middleware hands to the guard. *)
Definition staticFile `{Imports} (dir : string) (server : ViteDevServer)
    (url : string) : string :=
  fileUrlOf dir (orUrl (staticRedirected dir server url) url).

(** * Properties *)

(** ** The access guard *)

Section Guard.

Context `{Imports}.

Variables (url : string) (server : ViteDevServer) (w : World).

(** With [strict === false] the guard answers at once and touches nothing. *)
Lemma guard_strict_false :
  strict (config_server_fs server) = Some false ->
  isFileServingRestricted url server w = (Normal false, w).
Proof.
  intros Hs. unfold isFileServingRestricted.
  rewrite Hs. reflexivity.
Qed.

(** The guard never throws. *)
Lemma guard_returns :
  exists b w', isFileServingRestricted url server w = (Normal b, w').
Proof.
  unfold isFileServingRestricted, bind, fs_existsSync, ret.
  destruct (strictly_false _); [eauto|].
  destruct (existing w _); [eauto|]. cbn.
  destruct (bool_decide _); [eauto|].
  destruct (underAllowed _ _); [eauto|].
  destruct (falsy _); cbn.
  - unfold logger_warnOnce. repeat (destruct (bool_decide _); cbn); eauto.
  - eauto.
Qed.

(** A file found on disk is let through, whatever the policy says. *)
Lemma guard_existing :
  existing w (fileOf url) = true ->
  fst (isFileServingRestricted url server w) = Normal false.
Proof.
  intros He. unfold isFileServingRestricted, bind, fs_existsSync, ret.
  destruct (strictly_false _); [reflexivity|].
  rewrite He. reflexivity.
Qed.

(** The answer [true] is given exactly on the last branch. *)
Lemma guard_true_iff :
  fst (isFileServingRestricted url server w) = Normal true <->
  strict (config_server_fs server) = Some true /\
  existing w (fileOf url) = false /\
  (fileOf url ∉ moduleGraph_safeModulesPath server) /\
  underAllowed (allow (config_server_fs server)) (fileOf url) = false.
Proof.
  unfold isFileServingRestricted, bind, fs_existsSync, ret.
  destruct (strict (config_server_fs server)) as [[|]|] eqn:Hs; cbn.
  - destruct (existing w (fileOf url)); cbn.
    { split; [discriminate|]. intros (_ & ? & _); discriminate. }
    case_bool_decide as Hsafe; cbn.
    { split; [discriminate|]. intros (_ & _ & ? & _); contradiction. }
    destruct (underAllowed _ _); cbn.
    { split; [discriminate|]. intros (_ & _ & _ & ?); discriminate. }
    split; auto.
  - split; [discriminate|]. intros (? & _); discriminate.
  - destruct (existing w (fileOf url)); cbn.
    { split; [discriminate|]. intros (? & _); discriminate. }
    case_bool_decide; cbn.
    { split; [discriminate|]. intros (? & _); discriminate. }
    destruct (underAllowed _ _); cbn.
    { split; [discriminate|]. intros (? & _); discriminate. }
    unfold logger_warnOnce.
    repeat (case_bool_decide; cbn);
      (split; [discriminate|]; intros (? & _); discriminate).
Qed.

End Guard.

(** What the guard leaves behind when it answers [true]: one probe of the
    disk, and the allow-list warning written through [warn], whether or not
    the same message was written before. *)
Lemma guard_restricted_world `{Imports} url server w :
  fst (isFileServingRestricted url server w) = Normal true ->
  snd (isFileServingRestricted url server w) =
  {| existing := existing w;
     probes := probes w ++ [fileOf url];
     console := console w ++
       [outside_allow_list_message url (allow (config_server_fs server))];
     warnedMessages := warnedMessages w;
     req_url := req_url w;
     dispatched := dispatched w |}.
Proof.
  intros Ht. apply guard_true_iff in Ht as (Hs & He & Hsafe & Hal).
  unfold isFileServingRestricted, bind, fs_existsSync, ret.
  rewrite Hs. cbn. rewrite He. rewrite bool_decide_eq_false_2 by exact Hsafe.
  rewrite Hal. reflexivity.
Qed.

(** ** The alias loop *)

Lemma redirectedByAlias_app pre rest url :
  redirectedByAlias (pre ++ rest) url =
  match redirectedByAlias pre url with
  | Some r => Some r
  | None => redirectedByAlias rest url
  end.
Proof.
  induction pre as [|rule pre IH]; cbn; [reflexivity|].
  destruct (aliasMatches rule url); [reflexivity | exact IH].
Qed.

Lemma redirectedByAlias_None rules url :
  redirectedByAlias rules url = None <->
  forallb (fun rule => negb (aliasMatches rule url)) rules = true.
Proof.
  induction rules as [|rule rules IH]; cbn; [tauto|].
  destruct (aliasMatches rule url); cbn; [|exact IH].
  split; discriminate.
Qed.

(** ** The middlewares *)

Section Middlewares.

Context `{Imports}.

Variables (dir : string) (server : ViteDevServer) (w : World).

Lemma static_skip :
  staticSkips (req_url w) = true ->
  serveStaticMiddleware dir server w = next w.
Proof.
  intros Hs. unfold serveStaticMiddleware, bind, get_req_url.
  rewrite Hs. reflexivity.
Qed.

Lemma public_skip :
  isImportRequest (req_url w) || isInternalRequest (req_url w) = true ->
  servePublicMiddleware dir w = next w.
Proof.
  intros Hs. unfold servePublicMiddleware, bind, get_req_url.
  rewrite Hs. reflexivity.
Qed.

Lemma public_serve :
  isImportRequest (req_url w) || isInternalRequest (req_url w) = false ->
  servePublicMiddleware dir w = serve dir w.
Proof.
  intros Hs. unfold servePublicMiddleware, bind, get_req_url.
  rewrite Hs. reflexivity.
Qed.

(** A [/@fs/] request runs the guard, calls [next] when the guard restricts,
    and then in either case rewrites [req.url] and calls the sirv handler. *)
Lemma rawfs_prefixed :
  JsString.startsWith (req_url w) FS_PREFIX = true ->
  serveRawFsMiddleware server w =
  let '(_, w1) := isFileServingRestricted (rawFsTarget (req_url w)) server w in
  let restricted :=
    fst (isFileServingRestricted (rawFsTarget (req_url w)) server w) in
  (Normal tt,
   {| existing := existing w1; probes := probes w1;
      console := console w1; warnedMessages := warnedMessages w1;
      req_url := rawFsUrl (req_url w);
      dispatched :=
        dispatched w1 ++
        (match restricted with Normal true => [CallNext] | _ => [] end) ++
        [CallServe "/" (rawFsUrl (req_url w))] |}).
Proof.
  intros Hp. unfold serveRawFsMiddleware, bind at 1, get_req_url.
  rewrite Hp. unfold rawFsTarget, rawFsUrl, bind.
  destruct (guard_returns (slash (path_resolve [fsPathFromId (req_url w)])) server w)
    as (b & w1 & Hg).
  rewrite Hg. destruct b; unfold serve, next, dispatch; cbn.
  - rewrite <- app_assoc. reflexivity.
  - reflexivity.
Qed.

End Middlewares.

(** ** What the guard answers *)

(** C4: with [fs.strict] explicitly [false] the guard answers [false] for
    every path, whatever the allow list and the safe module set hold and
    whether or not the path exists; it does so before looking at anything:
    the world is left as it was. *)
Theorem strict_disabled_not_restricted `{Imports} url server w :
  strict (config_server_fs server) = Some false ->
  isFileServingRestricted url server w = (Normal false, w).
Proof. apply guard_strict_false. Qed.

(** C6: a path whose normalized form is in [safeModulesPath] gets the answer
    [false], with no condition on the allow list, on [fs.strict] or on the
    disk. *)
Theorem safe_module_not_restricted `{Imports} url server w :
  fileOf url ∈ moduleGraph_safeModulesPath server ->
  fst (isFileServingRestricted url server w) = Normal false.
Proof.
  intros Hsafe.
  destruct (guard_returns url server w) as (b & w' & Hg).
  destruct b; rewrite Hg; [|reflexivity].
  assert (Ht : fst (isFileServingRestricted url server w) = Normal true)
    by (rewrite Hg; reflexivity).
  apply guard_true_iff in Ht as (_ & _ & Hout & _). contradiction.
Qed.

(** C5, as amended: a path whose normalized form starts with an allowed
    directory followed by a slash gets the answer [false].  (A path equal to
    an allowed directory does not start with that directory plus slash.) *)
Theorem allowed_descendant_not_restricted `{Imports} url server w d :
  In d (allow (config_server_fs server)) ->
  JsString.startsWith (fileOf url) (d +:+ "/") = true ->
  fst (isFileServingRestricted url server w) = Normal false.
Proof.
  intros Hd Hp.
  destruct (guard_returns url server w) as (b & w' & Hg).
  destruct b; rewrite Hg; [|reflexivity].
  assert (Ht : fst (isFileServingRestricted url server w) = Normal true)
    by (rewrite Hg; reflexivity).
  apply guard_true_iff in Ht as (_ & _ & _ & Hal).
  unfold underAllowed in Hal.
  assert (Hex : existsb
            (fun i => JsString.startsWith (fileOf url) (i +:+ "/"))
            (allow (config_server_fs server)) = true)
    by (apply existsb_exists; exists d; split; assumption).
  congruence.
Qed.

(** C9, as amended: when the guard answers [true] it has written the
    allow-list warning through [warn]: the message is appended to the log
    whatever the set of already emitted messages holds, and that set is left
    as it was; a second request for the same URL is answered [true] again
    and writes the same message a second time. *)
Theorem restricted_warning_written_each_time `{Imports} url server w :
  fst (isFileServingRestricted url server w) = Normal true ->
  (console (snd (isFileServingRestricted url server w)) =
     console w ++
     [outside_allow_list_message url (allow (config_server_fs server))] /\
   warnedMessages (snd (isFileServingRestricted url server w)) =
     warnedMessages w) /\
  fst (guardTwice url server w) = Normal true /\
  console (snd (guardTwice url server w)) =
    console w ++
    [outside_allow_list_message url (allow (config_server_fs server));
     outside_allow_list_message url (allow (config_server_fs server))].
Proof.
  intros Ht. pose proof (guard_restricted_world url server w Ht) as Hw.
  split; [rewrite Hw; split; reflexivity|].
  unfold guardTwice, bind.
  destruct (isFileServingRestricted url server w) as [c w1] eqn:Hg.
  cbn in Ht, Hw. subst c.
  assert (Ht1 : fst (isFileServingRestricted url server w1) = Normal true).
  { apply guard_true_iff.
    pose proof (proj1 (guard_true_iff url server w)) as Hc.
    rewrite Hg in Hc. specialize (Hc eq_refl).
    rewrite Hw. cbn. exact Hc. }
  pose proof (guard_restricted_world url server w1 Ht1) as Hw1.
  split; [exact Ht1|].
  rewrite Hw1. cbn. rewrite Hw. cbn. rewrite <- app_assoc. reflexivity.
Qed.

(** ** Alias resolution *)

(** C7: the alias rules are tried in the configured order and the first one
    that matches decides: with the rules [("/a", "/x")], [("/a/b", "/y")]
    the URL [/a/b/c] is redirected to [/x/b/c], although the second rule
    alone would give [/y/c]; in general the rules behind the first matching
    one have no part in the result. *)
Theorem alias_first_match_wins :
  redirectedByAlias [stringAlias "/a" "/x"; stringAlias "/a/b" "/y"] "/a/b/c"
    = Some "/x/b/c" /\
  redirectedByAlias [stringAlias "/a/b" "/y"] "/a/b/c" = Some "/y/c" /\
  forall pre rule rest url,
    redirectedByAlias pre url = None ->
    aliasMatches rule url = true ->
    redirectedByAlias (pre ++ rule :: rest) url = Some (aliasReplace rule url).
Proof.
  split; [reflexivity|]. split; [reflexivity|].
  intros pre rule rest url Hpre Hm.
  rewrite redirectedByAlias_app, Hpre. cbn. rewrite Hm. reflexivity.
Qed.

(** ** The middlewares *)

(** C8, as amended: the project-root static middleware leaves a request to
    the next handler, with nothing else done (no alias, no path resolution,
    no guard, no sirv), when the URL ends with a slash, when its extension
    after [cleanUrl] is [.html], or when it is an internal request. *)
Theorem static_skip_defers `{Imports} dir server w :
  JsString.endsWith (req_url w) "/" = true \/
  path_extname (cleanUrl (req_url w)) = ".html" \/
  isInternalRequest (req_url w) = true ->
  serveStaticMiddleware dir server w = (Normal tt, afterNext w).
Proof.
  intros Hskip. rewrite static_skip; [reflexivity|].
  unfold staticSkips.
  destruct Hskip as [He | [Hx | Hi]].
  - rewrite He. reflexivity.
  - rewrite Hx. cbn. rewrite orb_true_r. reflexivity.
  - rewrite Hi. apply orb_true_r.
Qed.

(** C10: the public middleware never runs the guard: on every request it
    leaves the disk unprobed, the log and [req.url] as they were; a request
    that is neither an import request nor an internal one goes straight to
    the sirv handler of the public directory, with its URL unchanged. *)
Theorem public_serves_directly `{Imports} dir w :
  (let w' := snd (servePublicMiddleware dir w) in
   probes w' = probes w /\ console w' = console w /\
   warnedMessages w' = warnedMessages w /\ req_url w' = req_url w) /\
  (isImportRequest (req_url w) = false ->
   isInternalRequest (req_url w) = false ->
   servePublicMiddleware dir w = (Normal tt, afterServe dir w)).
Proof.
  split.
  - destruct (isImportRequest (req_url w) || isInternalRequest (req_url w))
      eqn:Hs.
    + rewrite public_skip by exact Hs. cbn. auto.
    + rewrite public_serve by exact Hs. cbn. auto.
  - intros Him Hin. rewrite public_serve; [reflexivity|].
    rewrite Him, Hin. reflexivity.
Qed.

(** ** Runs on the reference host *)

Section OnPosixHost.

#[local] Existing Instance host.

(** C1: a file that exists on disk, is outside the allow list and is not a
    safe module, under [strict = true]: the guard answers [false], where the
    claim asks for [true]. *)
Theorem guard_serves_existing_file_outside_allow_list :
  strict (config_server_fs projServer) = Some true /\
  existing (world ["/etc/passwd"] "/") (fileOf "/etc/passwd") = true /\
  (fileOf "/etc/passwd" ∉ moduleGraph_safeModulesPath projServer) /\
  underAllowed (allow (config_server_fs projServer)) (fileOf "/etc/passwd")
    = false /\
  fst (isFileServingRestricted "/etc/passwd" projServer
         (world ["/etc/passwd"] "/")) = Normal false.
Proof.
  repeat split; try reflexivity.
  cbn. apply not_elem_of_empty.
Qed.

(** C2: a path that does not exist on disk, under [strict = true] and outside
    the allow list: the guard answers [true], where the claim asks for
    [false]. *)
Theorem guard_restricts_missing_file :
  existing (world [] "/") (fileOf "/api/users") = false /\
  fst (isFileServingRestricted "/api/users" projServer (world [] "/"))
    = Normal true.
Proof. split; reflexivity. Qed.

(** C3: a [/@fs/] request whose path the guard restricts: [next] is called
    and the request is then handed to the sirv handler of the filesystem
    root all the same. *)
Theorem rawfs_restricted_request_is_also_served :
  JsString.startsWith "/@fs/home/user/secret.txt" FS_PREFIX = true /\
  fst (isFileServingRestricted (rawFsTarget "/@fs/home/user/secret.txt")
         projServer (world [] "/@fs/home/user/secret.txt")) = Normal true /\
  dispatched
    (snd (serveRawFsMiddleware projServer
            (world [] "/@fs/home/user/secret.txt"))) =
  [CallNext; CallServe "/" "home/user/secret.txt"].
Proof. repeat split; reflexivity. Qed.

(** C9, the claim as stated fails: two requests for [/secret.txt] are both
    restricted with the same message, and the log holds it twice. *)
Lemma restricted_warning_logged_twice :
  fst (guardTwice "/secret.txt" projServer (world [] "/")) = Normal true /\
  console (snd (guardTwice "/secret.txt" projServer (world [] "/"))) =
  [outside_allow_list_message "/secret.txt" ["/proj"];
   outside_allow_list_message "/secret.txt" ["/proj"]].
Proof. split; reflexivity. Qed.

(** C5, the claim as stated fails: the path [/proj] is equal to the allowed
    directory [/proj] and the guard answers [true]. *)
Lemma allowed_directory_itself_restricted :
  fileOf "/proj" = "/proj" /\
  In "/proj" (allow (config_server_fs projServer)) /\
  fst (isFileServingRestricted "/proj" projServer (world [] "/"))
    = Normal true.
Proof. repeat split; try reflexivity. cbn. auto. Qed.

(** C8, the claim as stated fails: [/src/main.js?import] is an import
    request, and the static middleware runs the guard on its file and hands
    it to the sirv handler of the project root. *)
Lemma static_serves_import_request :
  isImportRequest "/src/main.js?import" = true /\
  probes
    (snd (serveStaticMiddleware "/proj" projServer
            (world ["/proj/src/main.js"] "/src/main.js?import"))) =
  ["/proj/src/main.js"] /\
  dispatched
    (snd (serveStaticMiddleware "/proj" projServer
            (world ["/proj/src/main.js"] "/src/main.js?import"))) =
  [CallServe "/proj" "/src/main.js?import"].
Proof. repeat split; reflexivity. Qed.

(** The rules of C7 inside the static middleware: the request leaves for
    sirv with [req.url] set to the first rule's result. *)
Example static_applies_first_alias :
  snd (serveStaticMiddleware "/proj"
         (openServer [stringAlias "/a" "/x"; stringAlias "/a/b" "/y"] [] ∅)
         (world [] "/a/b/c")) =
  afterServe "/proj" (world [] "/x/b/c").
Proof. reflexivity. Qed.

(** *** Instances of the general statements *)

Lemma strict_disabled_not_restricted_witness :
  strict (config_server_fs (openServer [] [] ∅)) = Some false /\
  isFileServingRestricted "/etc/passwd" (openServer [] [] ∅)
    (world ["/etc/passwd"] "/") =
  (Normal false, world ["/etc/passwd"] "/").
Proof.
  split; [reflexivity|].
  apply (@strict_disabled_not_restricted host). reflexivity.
Defined.

Lemma safe_module_not_restricted_witness :
  fileOf "/deps/lib/index.js" ∈
    moduleGraph_safeModulesPath
      (strictServer [] ["/proj"] {[ "/deps/lib/index.js" ]}) /\
  fst (isFileServingRestricted "/deps/lib/index.js"
         (strictServer [] ["/proj"] {[ "/deps/lib/index.js" ]})
         (world [] "/")) = Normal false.
Proof.
  assert (Hin : fileOf "/deps/lib/index.js" ∈
            moduleGraph_safeModulesPath
              (strictServer [] ["/proj"] {[ "/deps/lib/index.js" ]})).
  { cbn. apply elem_of_singleton_2. reflexivity. }
  split; [exact Hin|].
  apply (@safe_module_not_restricted host). exact Hin.
Defined.

Lemma allowed_descendant_not_restricted_witness :
  In "/proj" (allow (config_server_fs projServer)) /\
  JsString.startsWith (fileOf "/proj/src/main.js") ("/proj" +:+ "/") = true /\
  fst (isFileServingRestricted "/proj/src/main.js" projServer (world [] "/"))
    = Normal false.
Proof.
  assert (Hd : In "/proj" (allow (config_server_fs projServer)))
    by (cbn; auto).
  split; [exact Hd|]. split; [reflexivity|].
  apply (@allowed_descendant_not_restricted host _ _ _ "/proj");
    [exact Hd | reflexivity].
Defined.

Lemma alias_first_match_wins_witness :
  redirectedByAlias [stringAlias "/b" "/q"] "/a/b/c" = None /\
  aliasMatches (stringAlias "/a" "/x") "/a/b/c" = true /\
  redirectedByAlias
    ([stringAlias "/b" "/q"] ++
     stringAlias "/a" "/x" :: [stringAlias "/a/b" "/y"]) "/a/b/c" =
  Some (aliasReplace (stringAlias "/a" "/x") "/a/b/c").
Proof.
  split; [reflexivity|]. split; [reflexivity|].
  apply (proj2 (proj2 alias_first_match_wins)); reflexivity.
Defined.

Lemma static_skip_defers_witness :
  JsString.endsWith "/assets/" "/" = true /\
  serveStaticMiddleware "/proj" projServer (world [] "/assets/") =
  (Normal tt, afterNext (world [] "/assets/")).
Proof.
  split; [reflexivity|].
  apply (@static_skip_defers host). left. reflexivity.
Defined.

Lemma public_serves_directly_witness :
  isImportRequest "/logo.png" = false /\
  isInternalRequest "/logo.png" = false /\
  servePublicMiddleware "/proj/public" (world [] "/logo.png") =
  (Normal tt, afterServe "/proj/public" (world [] "/logo.png")).
Proof.
  split; [reflexivity|]. split; [reflexivity|].
  apply (proj2 (@public_serves_directly host "/proj/public"
                  (world [] "/logo.png"))); reflexivity.
Defined.

Lemma restricted_warning_written_each_time_witness :
  fst (isFileServingRestricted "/secret.txt" projServer
         (worldWarned (outside_allow_list_message "/secret.txt" ["/proj"])
            [] "/")) = Normal true /\
  console
    (snd (guardTwice "/secret.txt" projServer
            (worldWarned (outside_allow_list_message "/secret.txt" ["/proj"])
               [] "/"))) =
  [outside_allow_list_message "/secret.txt" ["/proj"]] ++
  [outside_allow_list_message "/secret.txt" ["/proj"];
   outside_allow_list_message "/secret.txt" ["/proj"]].
Proof.
  assert (Ht : fst (isFileServingRestricted "/secret.txt" projServer
                      (worldWarned
                         (outside_allow_list_message "/secret.txt" ["/proj"])
                         [] "/")) = Normal true)
    by reflexivity.
  split; [exact Ht|].
  exact (proj2 (proj2 (@restricted_warning_written_each_time host
                         "/secret.txt" projServer _ Ht))).
Defined.

End OnPosixHost.

(** * Further properties *)

(** ** JavaScript strings *)

Lemma prefix_append p r : String.prefix p (p +:+ r) = true.
Proof.
  induction p as [|c p IH]; simpl.
  - destruct r; reflexivity.
  - destruct (ascii_dec c c) as [_|Hne]; [exact IH | contradiction].
Qed.

Lemma prefix_split p s :
  String.prefix p s = true -> exists r, s = p +:+ r.
Proof.
  revert s. induction p as [|c p IH]; intros s Hp.
  - exists s. reflexivity.
  - destruct s as [|d s]; simpl in Hp; [discriminate|].
    destruct (ascii_dec c d) as [->|]; [|discriminate].
    destruct (IH s Hp) as [r ->]. exists r. reflexivity.
Qed.

Lemma length_append s r :
  String.length (s +:+ r) = String.length s + String.length r.
Proof. induction s as [|c s IH]; simpl; [reflexivity | rewrite IH; reflexivity]. Qed.

Lemma prefix_length p s :
  String.prefix p s = true -> String.length p <= String.length s.
Proof.
  intros Hp. destruct (prefix_split p s Hp) as [r ->].
  rewrite length_append. lia.
Qed.

Lemma slice_append p r : JsString.slice (String.length p) (p +:+ r) = r.
Proof. induction p as [|c p IH]; simpl; [destruct r; reflexivity | exact IH]. Qed.

Lemma endsWith_append s p : JsString.endsWith (s +:+ p) p = true.
Proof.
  unfold JsString.endsWith. rewrite length_append.
  replace (String.length s + String.length p - String.length p)
    with (String.length s) by lia.
  rewrite slice_append, String.eqb_refl, andb_true_r.
  apply Nat.leb_le. lia.
Qed.

Lemma indexOf_prefix s p :
  String.prefix p s = true -> JsString.indexOf s p = Some 0.
Proof.
  intros Hp. destruct s as [|c s]; simpl in Hp |- *.
  - destruct p; [reflexivity | discriminate Hp].
  - rewrite Hp. reflexivity.
Qed.

Lemma getSubstitution_dollarFree matched before after r :
  dollarFree r = true ->
  JsString.getSubstitution matched before after r = r.
Proof.
  induction r as [|c r IH]; cbn; [reflexivity|].
  intros Hd. apply andb_true_iff in Hd as [Hc Hr].
  specialize (IH Hr).
  destruct c as [[] [] [] [] [] [] [] []]; try discriminate Hc;
    cbn; rewrite ?IH; reflexivity.
Qed.

Lemma append_assoc s r t : (s +:+ r) +:+ t = s +:+ r +:+ t.
Proof.
  induction s as [|c s IH]; [reflexivity|].
  change (String c ((s +:+ r) +:+ t) = String c (s +:+ r +:+ t)).
  f_equal. exact IH.
Qed.

Lemma append_empty s : s +:+ "" = s.
Proof.
  induction s as [|c s IH]; [reflexivity|].
  change (String c (s +:+ "") = String c s). f_equal. exact IH.
Qed.

(** ** More on the access guard *)

(** The answer of the guard as a formula of the policy and the disk. *)
Lemma guard_answer `{Imports} url server w :
  fst (isFileServingRestricted url server w) =
  Normal
    match strict (config_server_fs server) with
    | Some true =>
        negb (existing w (fileOf url)) &&
        negb (bool_decide (fileOf url ∈ moduleGraph_safeModulesPath server)) &&
        negb (underAllowed (allow (config_server_fs server)) (fileOf url))
    | _ => false
    end.
Proof.
  unfold isFileServingRestricted, bind, fs_existsSync, ret.
  destruct (strict (config_server_fs server)) as [[|]|]; cbn;
    [ | reflexivity | ].
  - destruct (existing w (fileOf url)); cbn; [reflexivity|].
    destruct (bool_decide _); cbn; [reflexivity|].
    destruct (underAllowed _ _); reflexivity.
  - destruct (existing w (fileOf url)); cbn; [reflexivity|].
    destruct (bool_decide _); cbn; [reflexivity|].
    destruct (underAllowed _ _); cbn; [reflexivity|].
    unfold logger_warnOnce. repeat (case_bool_decide; cbn); reflexivity.
Qed.

(** The world the guard leaves: the disk, the request and the dispatches are
    as before; the disk was probed once unless [strict === false]; the log
    and the set of emitted messages have only grown. *)
Lemma guard_shape `{Imports} url server w :
  exists written warned,
    snd (isFileServingRestricted url server w) =
    {| existing := existing w;
       probes := probes w ++
         (if strictly_false (strict (config_server_fs server)) then []
          else [fileOf url]);
       console := console w ++ written;
       warnedMessages := warned;
       req_url := req_url w;
       dispatched := dispatched w |} /\
    warnedMessages w ⊆ warned.
Proof.
  unfold isFileServingRestricted, bind, fs_existsSync, ret.
  destruct (strictly_false _).
  { exists [], (warnedMessages w). split; [|reflexivity].
    destruct w; cbn. rewrite !app_nil_r. reflexivity. }
  destruct (existing w (fileOf url)); cbn.
  { exists [], (warnedMessages w). rewrite app_nil_r. split; reflexivity. }
  destruct (bool_decide _); cbn.
  { exists [], (warnedMessages w). rewrite app_nil_r. split; reflexivity. }
  destruct (underAllowed _ _); cbn.
  { exists [], (warnedMessages w). rewrite app_nil_r. split; reflexivity. }
  destruct (falsy _); cbn.
  - unfold logger_warnOnce. repeat (destruct (bool_decide _); cbn).
    + exists [], (warnedMessages w). rewrite app_nil_r. split; reflexivity.
    + eexists [_], _. split; [reflexivity | set_solver].
    + eexists [_], _. split; [reflexivity | set_solver].
    + eexists [_; _], _. rewrite <- app_assoc. split; [reflexivity | set_solver].
  - eexists [_], _. split; reflexivity.
Qed.

(** X1: the guard restricts a path exactly when [strict] is [true], the
    normalized path is not on disk, is not a safe module and is under no
    allowed directory; its answer is the value of that test. *)
Theorem guard_decision_table `{Imports} url server w :
  fst (isFileServingRestricted url server w) =
  Normal
    match strict (config_server_fs server) with
    | Some true =>
        negb (existing w (fileOf url)) &&
        negb (bool_decide (fileOf url ∈ moduleGraph_safeModulesPath server)) &&
        negb (underAllowed (allow (config_server_fs server)) (fileOf url))
    | _ => false
    end.
Proof. apply guard_answer. Qed.

(** X2: the guard never throws, never dispatches and never touches [req.url]
    or the disk; it probes the disk exactly once, for the normalized path,
    unless [strict === false]; the log is only appended to and no emitted
    message is forgotten. *)
Theorem guard_frame `{Imports} url server w :
  (exists b, fst (isFileServingRestricted url server w) = Normal b) /\
  existing (snd (isFileServingRestricted url server w)) = existing w /\
  req_url (snd (isFileServingRestricted url server w)) = req_url w /\
  dispatched (snd (isFileServingRestricted url server w)) = dispatched w /\
  probes (snd (isFileServingRestricted url server w)) =
    probes w ++
    (if strictly_false (strict (config_server_fs server)) then []
     else [fileOf url]) /\
  (exists written,
     console (snd (isFileServingRestricted url server w)) =
     console w ++ written) /\
  warnedMessages w ⊆ warnedMessages (snd (isFileServingRestricted url server w)).
Proof.
  destruct (guard_shape url server w) as (written & warned & Hw & Hsub).
  rewrite Hw. cbn. repeat split; try assumption.
  - rewrite guard_answer. eauto.
  - eauto.
Qed.

(** [warnOnce] on a message that was already emitted does nothing. *)
Lemma warnOnce_known msg w :
  msg ∈ warnedMessages w -> logger_warnOnce msg w = (Normal tt, w).
Proof.
  intros Hin. unfold logger_warnOnce.
  rewrite bool_decide_eq_true_2 by exact Hin. reflexivity.
Qed.

(** [warnOnce] returns normally; afterwards the message is in the set of
    emitted messages, which has only grown, and the disk is as before. *)
Lemma warnOnce_emitted msg w :
  exists w', logger_warnOnce msg w = (Normal tt, w') /\
    msg ∈ warnedMessages w' /\
    warnedMessages w ⊆ warnedMessages w' /\
    existing w' = existing w.
Proof.
  unfold logger_warnOnce.
  destruct (decide (msg ∈ warnedMessages w)) as [Hin|Hout].
  - rewrite bool_decide_eq_true_2 by exact Hin. eexists. split; [reflexivity|].
    auto.
  - rewrite bool_decide_eq_false_2 by exact Hout. eexists.
    split; [reflexivity|]. cbn. repeat split; set_solver.
Qed.

(** X3: with [strict] left undefined the guard never restricts, and its two
    notices are written once: a second request for the same URL adds nothing
    to the log. *)
Theorem soft_mode_notices_once `{Imports} url server w :
  strict (config_server_fs server) = None ->
  fst (isFileServingRestricted url server w) = Normal false /\
  fst (guardTwice url server w) = Normal false /\
  console (snd (guardTwice url server w)) =
  console (snd (isFileServingRestricted url server w)).
Proof.
  intros Hs.
  assert (Hall : forall w0, fst (isFileServingRestricted url server w0) = Normal false)
    by (intros w0; rewrite guard_answer, Hs; reflexivity).
  split; [apply Hall|].
  unfold guardTwice, bind.
  destruct (isFileServingRestricted url server w) as [c w1] eqn:Hg.
  pose proof (Hall w) as Hc. rewrite Hg in Hc. cbn in Hc. subst c.
  split; [apply Hall|]. cbn.
  assert (Hw1 : w1 = snd (isFileServingRestricted url server w))
    by (rewrite Hg; reflexivity).
  clear Hg. revert Hw1.
  unfold isFileServingRestricted, bind, fs_existsSync, ret.
  rewrite Hs. cbn.
  destruct (existing w (fileOf url)) eqn:He; cbn.
  { intros ->. cbn. rewrite He. reflexivity. }
  destruct (bool_decide (fileOf url ∈ moduleGraph_safeModulesPath server));
    cbn.
  { intros ->. cbn. rewrite He. reflexivity. }
  destruct (underAllowed _ _); cbn.
  { intros ->. cbn. rewrite He. reflexivity. }
  set (m1 := unrestricted_access_message url).
  set (m2 := future_restriction_message).
  intros Hw1.
  assert (Hin : (m1 ∈ warnedMessages w1 /\ m2 ∈ warnedMessages w1) /\
                existing w1 = existing w).
  { subst w1.
    match goal with
    | |- context [logger_warnOnce m1 ?w0] =>
        destruct (warnOnce_emitted m1 w0) as (wa & Ea & Ha & _ & Hb)
    end.
    rewrite Ea.
    destruct (warnOnce_emitted m2 wa) as (wb & Eb & Hc & Hd & Hf).
    rewrite Eb. cbn in Hb |- *.
    split; [split; [apply Hd, Ha | exact Hc] | congruence]. }
  destruct Hin as [Hin He1x].
  assert (He1 : existing w1 (fileOf url) = false) by (rewrite He1x; exact He).
  rewrite He1. cbn.
  destruct Hin as [Hin1 Hin2].
  rewrite warnOnce_known by exact Hin1. cbn.
  rewrite warnOnce_known by exact Hin2. reflexivity.
Qed.

(** X4: widening the policy never restricts more: when the guard lets a path
    through, it still does so after directories were added to the allow
    list and modules to the safe set, [strict] being the same. *)
Theorem guard_monotone `{Imports} url server server' w :
  strict (config_server_fs server') = strict (config_server_fs server) ->
  incl (allow (config_server_fs server)) (allow (config_server_fs server')) ->
  moduleGraph_safeModulesPath server ⊆ moduleGraph_safeModulesPath server' ->
  fst (isFileServingRestricted url server w) = Normal false ->
  fst (isFileServingRestricted url server' w) = Normal false.
Proof.
  intros Hs Hal Hsafe Hf.
  destruct (guard_returns url server' w) as (b & w' & Hg).
  destruct b; rewrite Hg; [|reflexivity]. exfalso.
  assert (Ht : fst (isFileServingRestricted url server' w) = Normal true)
    by (rewrite Hg; reflexivity).
  apply guard_true_iff in Ht as (Hs' & He & Hout & Hun).
  assert (Ht : fst (isFileServingRestricted url server w) = Normal true).
  { apply guard_true_iff. repeat split.
    - congruence.
    - exact He.
    - intros Hin. apply Hout, Hsafe, Hin.
    - unfold underAllowed in *.
      destruct (existsb _ (allow (config_server_fs server))) eqn:Hex;
        [|reflexivity].
      apply existsb_exists in Hex as (d & Hd & Hp).
      rewrite <- Hun. symmetry. apply existsb_exists.
      exists d. split; [apply Hal, Hd | exact Hp]. }
  congruence.
Qed.

(** X5: a file is under the allow list exactly when it is an allowed
    directory followed by a slash and a rest (possibly empty); so the match
    is on a full path segment, and a directory is not under itself. *)
Theorem underAllowed_iff allow file :
  (underAllowed allow file = true <->
   exists d rest, In d allow /\ file = d +:+ "/" +:+ rest) /\
  underAllowed [file] file = false.
Proof.
  split.
  - unfold underAllowed. rewrite existsb_exists. split.
    + intros (d & Hd & Hp). apply prefix_split in Hp as [rest ->].
      exists d, rest. split; [exact Hd | apply append_assoc].
    + intros (d & rest & Hd & ->). exists d. split; [exact Hd|].
      rewrite <- append_assoc. apply prefix_append.
  - unfold underAllowed. cbn. rewrite orb_false_r.
    destruct (JsString.startsWith file (file +:+ "/")) eqn:Hp; [|reflexivity].
    apply prefix_length in Hp. rewrite length_append in Hp. cbn in Hp. lia.
Qed.

(** X6: what the guard answers depends on the world only through the disk:
    two worlds that agree on whether the normalized path exists get the same
    answer, whatever was logged, emitted or dispatched before. *)
Theorem guard_answer_reads_disk_only `{Imports} url server w1 w2 :
  existing w1 (fileOf url) = existing w2 (fileOf url) ->
  fst (isFileServingRestricted url server w1) =
  fst (isFileServingRestricted url server w2).
Proof. intros He. rewrite !guard_answer, He. reflexivity. Qed.

(** ** More on the static middleware *)

Lemma bind_run {A B} (m : M A) (k : A -> M B) w a w1 :
  m w = (Normal a, w1) -> bind m k w = k a w1.
Proof. intros Hm. unfold bind. rewrite Hm. reflexivity. Qed.

(** The guard run as a whole: its answer and the world it leaves. *)
Lemma guard_run `{Imports} url server w :
  exists b written warned,
    isFileServingRestricted url server w =
    (Normal b,
     {| existing := existing w;
        probes := probes w ++
          (if strictly_false (strict (config_server_fs server)) then []
           else [fileOf url]);
        console := console w ++ written;
        warnedMessages := warned;
        req_url := req_url w;
        dispatched := dispatched w |}).
Proof.
  destruct (guard_returns url server w) as (b & w' & Hg).
  destruct (guard_shape url server w) as (written & warned & Hw & _).
  rewrite Hg in Hw. cbn in Hw. subst w'. eauto.
Qed.

(** The static middleware on a request it does not skip and can decode. *)
Lemma static_run `{Imports} dir server w url :
  staticSkips (req_url w) = false ->
  decodeURI (req_url w) = Some url ->
  serveStaticMiddleware dir server w =
  (let* restricted :=
     isFileServingRestricted (staticFile dir server url) server in
   if restricted then next
   else
     let* _ :=
       match staticRedirected dir server url with
       | Some s => if JsString.truthy s then set_req_url s else ret tt
       | None => ret tt
       end in
     serve dir) w.
Proof.
  intros Hs Hd. unfold serveStaticMiddleware, bind at 1, get_req_url.
  rewrite Hs, Hd. reflexivity.
Qed.

(** X7: the static middleware answers every request with exactly one call:
    [next], or the sirv handler of its directory with [req.url] as it then
    is; when [decodeURI] throws, it has done nothing at all. *)
Theorem static_dispatches_once `{Imports} dir server w :
  match serveStaticMiddleware dir server w with
  | (Normal _, w') =>
      dispatched w' = dispatched w ++ [CallNext] \/
      dispatched w' = dispatched w ++ [CallServe dir (req_url w')]
  | (Throw _, w') => w' = w /\ decodeURI (req_url w) = None
  end.
Proof.
  destruct (staticSkips (req_url w)) eqn:Hs.
  { rewrite static_skip by exact Hs. cbn. left. reflexivity. }
  destruct (decodeURI (req_url w)) as [url|] eqn:Hd.
  - rewrite (static_run dir server w url Hs Hd). unfold bind at 1.
    destruct (guard_run (staticFile dir server url) server w)
      as (b & written & warned & ->).
    destruct b; cbn; [left; reflexivity|].
    unfold bind.
    destruct (staticRedirected dir server url) as [r|];
      [destruct (JsString.truthy r)|]; cbn; right; reflexivity.
  - unfold serveStaticMiddleware, bind, get_req_url. rewrite Hs, Hd.
    cbn. auto.
Qed.

(** X8: a request the guard restricts is left to [next] with [req.url] as it
    was received: the alias redirect is not written to the request. *)
Theorem static_restricted_defers `{Imports} dir server w url :
  staticSkips (req_url w) = false ->
  decodeURI (req_url w) = Some url ->
  fst (isFileServingRestricted (staticFile dir server url) server w)
    = Normal true ->
  fst (serveStaticMiddleware dir server w) = Normal tt /\
  dispatched (snd (serveStaticMiddleware dir server w)) =
    dispatched w ++ [CallNext] /\
  req_url (snd (serveStaticMiddleware dir server w)) = req_url w.
Proof.
  intros Hs Hd Ht. rewrite (static_run dir server w url Hs Hd).
  destruct (guard_run (staticFile dir server url) server w)
    as (b & written & warned & Hg).
  rewrite Hg in Ht. cbn in Ht. injection Ht as ->.
  rewrite (bind_run _ _ _ _ _ Hg). cbn. auto.
Qed.


(** X10: a string rule whose [find] starts the URL replaces that prefix and
    only it, when the replacement holds no dollar sign: the rest of the URL
    follows the replacement unchanged, later occurrences of [find] included. *)
Theorem alias_replaces_prefix f r rest :
  dollarFree r = true ->
  aliasMatches (stringAlias f r) (f +:+ rest) = true /\
  aliasReplace (stringAlias f r) (f +:+ rest) = r +:+ rest.
Proof.
  intros Hd. unfold aliasMatches, aliasReplace, stringAlias. cbn.
  assert (Hp : String.prefix f (f +:+ rest) = true) by apply prefix_append.
  split; [exact Hp|].
  unfold JsString.replace. rewrite (indexOf_prefix _ _ Hp).
  change (JsString.take 0 (f +:+ rest)) with "".
  change (0 + String.length f)%nat with (String.length f).
  rewrite slice_append, getSubstitution_dollarFree by exact Hd.
  reflexivity.
Qed.

(** X11: a redirect that starts with the served directory loses that
    directory once, whatever follows it. *)
Theorem served_root_stripped_once dir rest :
  dir +:+ rest <> "" ->
  stripServedRoot dir (Some (dir +:+ rest)) = Some rest.
Proof.
  intros Hne. unfold stripServedRoot, JsString.truthy, JsString.startsWith.
  rewrite (proj2 (String.eqb_neq _ _) Hne), prefix_append. cbn.
  rewrite slice_append. reflexivity.
Qed.

(** X12: the path handed to the guard ends with a slash whenever the
    resolved URL does, whether or not [path.resolve] kept the slash. *)
Theorem fileUrl_keeps_trailing_slash `{Imports} dir resolvedUrl :
  JsString.endsWith resolvedUrl "/" = true ->
  JsString.endsWith (fileUrlOf dir resolvedUrl) "/" = true.
Proof.
  intros He. unfold fileUrlOf. rewrite He. cbn.
  destruct (JsString.endsWith
              (path_resolve [dir; JsString.stripLeadingSlash resolvedUrl]) "/")
    eqn:Hr; cbn.
  - exact Hr.
  - apply endsWith_append.
Qed.

Lemma slice_all s : JsString.slice (String.length s) s = "".
Proof.
  rewrite <- (append_empty s) at 2. apply slice_append.
Qed.

(** X13: an alias whose result is the served directory itself, or the empty
    string, is dropped: the request is handled exactly as with an empty
    alias table. *)
Theorem alias_to_served_root_is_dropped `{Imports} dir server w url :
  decodeURI (req_url w) = Some url ->
  redirectedByAlias (config_resolve_alias server) url = Some dir \/
  redirectedByAlias (config_resolve_alias server) url = Some "" ->
  serveStaticMiddleware dir server w =
  serveStaticMiddleware dir (withAlias [] server) w.
Proof.
  intros Hd Hr.
  destruct (staticSkips (req_url w)) eqn:Hs.
  { rewrite !static_skip by exact Hs. reflexivity. }
  rewrite (static_run dir server w url Hs Hd).
  rewrite (static_run dir (withAlias [] server) w url Hs Hd).
  assert (Hred : staticRedirected dir server url = Some "").
  { unfold staticRedirected, stripServedRoot.
    destruct Hr as [-> | ->]; [|reflexivity].
    destruct (JsString.truthy dir) eqn:Ht.
    - unfold JsString.startsWith.
      rewrite <- (append_empty dir) at 2. rewrite prefix_append. cbn.
      rewrite slice_all. reflexivity.
    - cbn. unfold JsString.truthy in Ht.
      apply negb_false_iff, String.eqb_eq in Ht. rewrite Ht. reflexivity. }
  unfold staticFile. rewrite Hred.
  change (staticRedirected dir (withAlias [] server) url) with (@None string).
  reflexivity.
Qed.

(** ** More on the raw filesystem middleware *)

(** X14: the raw filesystem middleware never throws, and what it calls is
    decided by the prefix and the guard alone: without the prefix [next]
    only; with it the sirv handler of the filesystem root in every case,
    after a call of [next] when the guard restricted the path. *)
Theorem rawfs_dispatch `{Imports} server w :
  fst (serveRawFsMiddleware server w) = Normal tt /\
  dispatched (snd (serveRawFsMiddleware server w)) =
  dispatched w ++
  (if JsString.startsWith (req_url w) FS_PREFIX then
     match fst (isFileServingRestricted (rawFsTarget (req_url w)) server w)
     with
     | Normal true => [CallNext]
     | _ => []
     end ++ [CallServe "/" (rawFsUrl (req_url w))]
   else [CallNext]).
Proof.
  destruct (JsString.startsWith (req_url w) FS_PREFIX) eqn:Hp.
  - rewrite (rawfs_prefixed server w Hp).
    destruct (guard_run (rawFsTarget (req_url w)) server w)
      as (b & written & warned & ->).
    cbn. split; reflexivity.
  - unfold serveRawFsMiddleware, bind, get_req_url. rewrite Hp.
    cbn. split; reflexivity.
Qed.

(** X15: for a request that carries the prefix, [req.url] becomes what
    follows the prefix, a leading drive designator being removed on a
    Windows host only. *)
Theorem rawfs_strips_prefix `{Imports} server w rest :
  req_url w = FS_PREFIX +:+ rest ->
  req_url (snd (serveRawFsMiddleware server w)) =
  if isWindows then JsString.stripDrive rest else rest.
Proof.
  intros Hu.
  assert (Hp : JsString.startsWith (req_url w) FS_PREFIX = true)
    by (rewrite Hu; apply prefix_append).
  rewrite (rawfs_prefixed server w Hp).
  destruct (isFileServingRestricted (rawFsTarget (req_url w)) server w)
    as [c w1].
  cbn. unfold rawFsUrl. rewrite Hu, slice_append. reflexivity.
Qed.

(** ** The sirv options *)

Lemma isScriptPathname_append base ext :
  isScriptPathname ext = true -> isScriptPathname (base +:+ ext) = true.
Proof.
  intros He. induction base as [|c base IH]; [exact He|].
  change (String c base +:+ ext) with (String c (base +:+ ext)).
  cbn. rewrite IH. apply orb_true_r.
Qed.

(** X16: [setHeaders] declares a file as JavaScript exactly when its path
    ends with [.js], [.jsx], [.ts] or [.tsx]; then [Content-Type] becomes
    [application/javascript], otherwise it is left alone; no other header
    is ever touched. *)
Theorem setHeaders_script_types headers pathname :
  (isScriptPathname pathname = true <->
   exists base ext,
     pathname = base +:+ ext /\ In ext [".js"; ".jsx"; ".ts"; ".tsx"]) /\
  setHeaders headers pathname !! "content-type" =
    (if isScriptPathname pathname then Some "application/javascript"
     else headers !! "content-type") /\
  (forall name : string,
     name <> "content-type" ->
     setHeaders headers pathname !! name = headers !! name).
Proof.
  split; [|split].
  - split.
    + induction pathname as [|c p IH]; cbn; [discriminate|].
      intros Hs. apply orb_true_iff in Hs as [Hs | Hs].
      * apply andb_true_iff in Hs as [Hc Ht].
        apply Ascii.eqb_eq in Hc. subst c.
        destruct p as [|c1 r]; cbn in Ht; [discriminate|].
        apply andb_true_iff in Ht as [Hc1 Hr].
        exists "", (String "." (String c1 r)). split; [reflexivity|].
        apply orb_true_iff in Hc1 as [Hc1 | Hc1];
          apply Ascii.eqb_eq in Hc1; subst c1;
          apply orb_true_iff in Hr as [Hr | Hr];
          apply String.eqb_eq in Hr; subst r; cbn; auto.
      * destruct (IH Hs) as (base & ext & -> & Hin).
        exists (String c base), ext. split; [reflexivity | exact Hin].
    + intros (base & ext & -> & Hin). apply isScriptPathname_append.
      cbn in Hin.
      destruct Hin as [<- | [<- | [<- | [<- | []]]]]; reflexivity.
  - unfold setHeaders, res_setHeader.
    destruct (isScriptPathname pathname); [|reflexivity].
    apply lookup_insert_eq.
  - intros name Hne. unfold setHeaders, res_setHeader.
    destruct (isScriptPathname pathname); [|reflexivity].
    apply lookup_insert_ne. intros Heq. apply Hne. rewrite <- Heq.
    reflexivity.
Qed.

(** ** Further compositions *)

(** X17: with [strict === false] neither the static nor the raw filesystem
    middleware probes the disk or writes to the log, whatever the request. *)
Theorem strict_disabled_middlewares_stay_silent `{Imports} dir server w :
  strict (config_server_fs server) = Some false ->
  (probes (snd (serveStaticMiddleware dir server w)) = probes w /\
   console (snd (serveStaticMiddleware dir server w)) = console w) /\
  (probes (snd (serveRawFsMiddleware server w)) = probes w /\
   console (snd (serveRawFsMiddleware server w)) = console w).
Proof.
  intros Hf. split.
  - destruct (staticSkips (req_url w)) eqn:Hs.
    { rewrite static_skip by exact Hs. cbn. auto. }
    destruct (decodeURI (req_url w)) as [url|] eqn:Hd.
    + rewrite (static_run dir server w url Hs Hd).
      rewrite (bind_run _ _ _ _ _
                 (guard_strict_false (staticFile dir server url) server w Hf)).
      unfold bind.
      destruct (staticRedirected dir server url) as [r|];
        [destruct (JsString.truthy r)|]; cbn; auto.
    + unfold serveStaticMiddleware, bind, get_req_url. rewrite Hs, Hd.
      cbn. auto.
  - destruct (JsString.startsWith (req_url w) FS_PREFIX) eqn:Hp.
    + rewrite (rawfs_prefixed server w Hp).
      rewrite (guard_strict_false (rawFsTarget (req_url w)) server w Hf).
      cbn. auto.
    + unfold serveRawFsMiddleware, bind, get_req_url. rewrite Hp. cbn. auto.
Qed.

(** X18: the alias loop yields a redirect exactly when some rule of the
    table matches; the redirect is then the replacement made by the first
    such rule, every rule before it not matching. *)
Theorem redirect_comes_from_first_match rules url r :
  redirectedByAlias rules url = Some r <->
  exists pre rule rest,
    rules = pre ++ rule :: rest /\
    forallb (fun earlier => negb (aliasMatches earlier url)) pre = true /\
    aliasMatches rule url = true /\
    r = aliasReplace rule url.
Proof.
  split.
  - induction rules as [|rule rules IH]; cbn; [discriminate|].
    destruct (aliasMatches rule url) eqn:Hm.
    + intros [= <-]. exists [], rule, rules. auto.
    + intros Hr. destruct (IH Hr) as (pre & rule' & rest & -> & Hpre & Hm' & ->).
      exists (rule :: pre), rule', rest. cbn. rewrite Hm, Hpre. auto.
  - intros (pre & rule & rest & -> & Hpre & Hm & ->).
    rewrite redirectedByAlias_app.
    rewrite (proj2 (redirectedByAlias_None pre url) Hpre).
    cbn. rewrite Hm. reflexivity.
Qed.

(** X19: a request that an alias redirects and the guard lets through
    reaches sirv with [req.url] set to the redirect, the served directory
    stripped from its front. *)
Theorem static_redirect_committed `{Imports} dir server w url s :
  staticSkips (req_url w) = false ->
  decodeURI (req_url w) = Some url ->
  staticRedirected dir server url = Some s ->
  s <> "" ->
  fst (isFileServingRestricted (staticFile dir server url) server w)
    = Normal false ->
  req_url (snd (serveStaticMiddleware dir server w)) = s /\
  dispatched (snd (serveStaticMiddleware dir server w)) =
    dispatched w ++ [CallServe dir s].
Proof.
  intros Hs Hd Hr Hne Hf. rewrite (static_run dir server w url Hs Hd).
  destruct (guard_run (staticFile dir server url) server w)
    as (b & written & warned & Hg).
  rewrite Hg in Hf. cbn in Hf. injection Hf as ->.
  rewrite (bind_run _ _ _ _ _ Hg). rewrite Hr.
  unfold JsString.truthy. rewrite (proj2 (String.eqb_neq _ _) Hne).
  cbn. auto.
Qed.

(** ** Instances of the further properties on the reference host *)

Section FurtherRuns.

#[local] Existing Instance host.

Lemma soft_mode_notices_once_witness :
  strict (config_server_fs (softServer [] ["/proj"] ∅)) = None /\
  console
    (snd (guardTwice "/outside.txt" (softServer [] ["/proj"] ∅)
            (world [] "/"))) =
  console
    (snd (isFileServingRestricted "/outside.txt" (softServer [] ["/proj"] ∅)
            (world [] "/"))).
Proof.
  split; [reflexivity|].
  apply (@soft_mode_notices_once host). reflexivity.
Defined.

Lemma guard_monotone_witness :
  fst (isFileServingRestricted "/proj/a.js" projServer (world [] "/"))
    = Normal false /\
  fst (isFileServingRestricted "/proj/a.js"
         (strictServer [] ["/proj"; "/shared"] {[ "/deps/x.js" ]})
         (world [] "/")) = Normal false.
Proof.
  split; [reflexivity|].
  apply (@guard_monotone host _ projServer).
  - reflexivity.
  - intros d [<- | []]. cbn. auto.
  - cbn. apply empty_subseteq.
  - reflexivity.
Defined.

Lemma guard_answer_reads_disk_only_witness :
  fst (isFileServingRestricted "/secret.txt" projServer (world [] "/")) =
  fst (isFileServingRestricted "/secret.txt" projServer
         (worldWarned "seen before" [] "/other")).
Proof.
  apply (@guard_answer_reads_disk_only host). reflexivity.
Defined.

Lemma static_restricted_defers_witness :
  fst (isFileServingRestricted
         (staticFile "/proj"
            (strictServer [stringAlias "/a" "/x"] ["/proj/src"] ∅) "/a/b/c")
         (strictServer [stringAlias "/a" "/x"] ["/proj/src"] ∅)
         (world [] "/a/b/c")) = Normal true /\
  dispatched
    (snd (serveStaticMiddleware "/proj"
            (strictServer [stringAlias "/a" "/x"] ["/proj/src"] ∅)
            (world [] "/a/b/c"))) = [CallNext] /\
  req_url
    (snd (serveStaticMiddleware "/proj"
            (strictServer [stringAlias "/a" "/x"] ["/proj/src"] ∅)
            (world [] "/a/b/c"))) = "/a/b/c".
Proof.
  split; [reflexivity|].
  exact (proj2 (@static_restricted_defers host "/proj"
                  (strictServer [stringAlias "/a" "/x"] ["/proj/src"] ∅)
                  (world [] "/a/b/c") "/a/b/c" eq_refl eq_refl eq_refl)).
Defined.


Lemma alias_replaces_prefix_witness :
  dollarFree "/src" = true /\
  aliasReplace (stringAlias "/@" "/src") ("/@" +:+ "/lib/@/x.js") =
  "/src" +:+ "/lib/@/x.js".
Proof.
  split; [reflexivity|].
  apply (alias_replaces_prefix "/@" "/src" "/lib/@/x.js"). reflexivity.
Defined.

Lemma served_root_stripped_once_witness :
  stripServedRoot "/proj" (Some ("/proj" +:+ "/proj/a.js")) =
  Some "/proj/a.js".
Proof.
  apply (served_root_stripped_once "/proj" "/proj/a.js").
  intros Heq. vm_compute in Heq. discriminate Heq.
Defined.

Lemma fileUrl_keeps_trailing_slash_witness :
  JsString.endsWith "/assets/" "/" = true /\
  JsString.endsWith (fileUrlOf "/proj" "/assets/") "/" = true.
Proof.
  split; [reflexivity|].
  apply (@fileUrl_keeps_trailing_slash host). reflexivity.
Defined.

Lemma alias_to_served_root_is_dropped_witness :
  serveStaticMiddleware "/proj"
    (strictServer [stringAlias "/app" "/proj"] ["/proj"] ∅)
    (world [] "/app") =
  serveStaticMiddleware "/proj"
    (withAlias [] (strictServer [stringAlias "/app" "/proj"] ["/proj"] ∅))
    (world [] "/app").
Proof.
  apply (@alias_to_served_root_is_dropped host "/proj" _ _ "/app").
  - reflexivity.
  - left. reflexivity.
Defined.

Lemma rawfs_strips_prefix_witness :
  req_url (snd (serveRawFsMiddleware projServer (world [] "/@fs/proj/a.js")))
  = "proj/a.js".
Proof.
  apply (@rawfs_strips_prefix host projServer (world [] "/@fs/proj/a.js")
           "proj/a.js").
  reflexivity.
Defined.

Lemma strict_disabled_middlewares_stay_silent_witness :
  strict (config_server_fs (openServer [] [] ∅)) = Some false /\
  probes
    (snd (serveRawFsMiddleware (openServer [] [] ∅)
            (world [] "/@fs/etc/hosts"))) = [] /\
  console
    (snd (serveRawFsMiddleware (openServer [] [] ∅)
            (world [] "/@fs/etc/hosts"))) = [].
Proof.
  split; [reflexivity|].
  exact (proj2 (@strict_disabled_middlewares_stay_silent host "/proj"
                  (openServer [] [] ∅) (world [] "/@fs/etc/hosts") eq_refl)).
Defined.

Lemma static_redirect_committed_witness :
  staticRedirected "/proj"
    (strictServer [stringAlias "/@" "/proj/src"] ["/proj"] ∅) "/@/a.js"
    = Some "/src/a.js" /\
  req_url
    (snd (serveStaticMiddleware "/proj"
            (strictServer [stringAlias "/@" "/proj/src"] ["/proj"] ∅)
            (world [] "/@/a.js"))) = "/src/a.js" /\
  dispatched
    (snd (serveStaticMiddleware "/proj"
            (strictServer [stringAlias "/@" "/proj/src"] ["/proj"] ∅)
            (world [] "/@/a.js"))) = [CallServe "/proj" "/src/a.js"].
Proof.
  split; [reflexivity|].
  apply (@static_redirect_committed host "/proj"
           (strictServer [stringAlias "/@" "/proj/src"] ["/proj"] ∅)
           (world [] "/@/a.js") "/@/a.js" "/src/a.js");
    try reflexivity.
  discriminate.
Defined.

End FurtherRuns.
